(** * The reverse-proxy autoscaling lifecycle hook

    A shallow embedding of
    [src/lambda/asgLifeCycleHooks/reverseProxy/index.py]: the Lambda
    handler that reacts to the LAUNCHING and TERMINATING lifecycle
    transitions of the reverse-proxy autoscaling group.

    The module talks to four services (EC2 metadata, Route 53, SSM and
    the autoscaling control plane).  Their behaviour is a parameter of the
    development: a [Cloud W] answers every outbound call from a world of
    type [W], either with a value or with an exception.  The handler is
    written in a state-and-exception monad over that world; every call it
    performs and every log line it writes is appended to a trace. *)

From stdpp Require Import gmap strings list.

Open Scope string_scope.
Open Scope list_scope.

Set Warnings "-register-all".

(** ** Python values *)

(** The event is whatever [json.loads] produced, and the collaborators
    return such values too.  Numbers are kept as integers: the handler
    never computes with a number, it only subscripts values and compares
    one of them with a string literal, and a float behaves like an int
    under both operations. *)
Inductive pyval : Type :=
| PNone
| PBool (b : bool)
| PInt (z : Z)
| PStr (s : string)
| PList (l : list pyval)
| PDict (d : gmap string pyval).

(** ** Exceptions *)

(** What an outbound call can raise.  [ClientError] is botocore's class,
    the only one [send_lifecycle_action] names; [OtherError] stands for
    every other subclass of [Exception].  Both carry [str(e)]. *)
Inductive cexn : Type :=
| ClientError (str : string)
| OtherError (str : string).

(** What the module itself can raise or let through. *)
Inductive exn : Type :=
| KeyError (key : string)        (* [d[key]] on a dict without [key] *)
| TypeError                      (* [v[key]] on a value that is no dict *)
| Collaborator (e : cexn)        (* raised by an outbound call, untouched *)
| Exception (message : string).  (* [raise Exception(message)], line 44 *)

Inductive result (A : Type) : Type :=
| Ok (a : A)
| Raise (e : exn).
Arguments Ok {A} a.
Arguments Raise {A} e.

(** [v[key]] for a string [key]. *)
Definition getitem (v : pyval) (key : string) : result pyval :=
  match v with
  | PDict d =>
      match d !! key with
      | Some x => Ok x
      | None => Raise (KeyError key)
      end
  | _ => Raise TypeError
  end.

(** [event["detail"][key]], the only way the module reads the event. *)
Definition detail (event : pyval) (key : string) : result pyval :=
  match getitem event "detail" with
  | Ok d => getitem d key
  | Raise e => Raise e
  end.

(** [v == literal] for a string literal: only an equal [str] is equal. *)
Definition eq_str (v : pyval) (literal : string) : bool :=
  match v with
  | PStr s => bool_decide (s = literal)
  | _ => false
  end.

(** ** Outbound calls *)

Inductive call : Type :=
| ec2_get_instance_public_dns_name (instanceId : pyval)
| r53_update_hosted_zone_cname_record
    (hostedZoneID rootDomain domainPrefix : string) (serverAddress : pyval)
| r53_delete_hosted_zone_cname_record
    (hostedZoneID rootDomain domainPrefix : string) (serverAddress : pyval)
| ssm_run_commands (instanceId : pyval) (commands : list string) (document : string)
| autoscaling_complete_lifecycle_action
    (LifecycleHookName AutoScalingGroupName LifecycleActionToken : pyval)
    (LifecycleActionResult : string) (InstanceId : pyval).

Definition outcome : Type := cexn + pyval.

(** The services behind the calls: a call made in a world yields the next
    world and either an exception or the returned value. *)
Definition Cloud (W : Type) : Type := call -> W -> W * outcome.

(** ** Trace *)

Inductive level : Type := INFO | WARNING | ERROR.

Inductive logged : Type :=
| LogEvent (event : pyval)                   (* "Event: %s", json.dumps(event) *)
| LogValue (v : pyval)                       (* a response object *)
| LogText (s : string)                       (* a literal or computed message *)
| LogFormat (template : string) (e : exn)    (* template.format(e) *)
| LogTraceback (e : exn).                    (* traceback.format_exc() *)

Inductive entry : Type :=
| Called (c : call) (o : outcome)
| Logged (l : level) (m : logged).

Definition trace : Type := list entry.

(** The outbound calls of a trace, in order, with their outcomes. *)
Fixpoint calls (t : trace) : list (call * outcome) :=
  match t with
  | [] => []
  | Called c o :: t' => (c, o) :: calls t'
  | Logged _ _ :: t' => calls t'
  end.

(** The call returned a value rather than raising. *)
Definition returned (o : outcome) : Prop :=
  match o with inr _ => True | inl _ => False end.

Definition succeeded (co : call * outcome) : Prop := returned co.2.

Definition is_report (co : call * outcome) : bool :=
  match co.1 with
  | autoscaling_complete_lifecycle_action _ _ _ _ _ => true
  | _ => false
  end.

(** The lifecycle report calls of a trace. *)
Definition report_calls (t : trace) : list (call * outcome) :=
  List.filter is_report (calls t).

(** ** Configuration *)

(** The six module-level globals of lines 22-27. *)
Record Config : Type := {
  R53_HOSTED_ZONE_ID : string;
  ARTIFACTS_BUCKET : string;
  NUCLEUS_ROOT_DOMAIN : string;
  NUCLEUS_DOMAIN_PREFIX : string;
  NUCLEUS_SERVER_ADDRESS : string;
  REVERSE_PROXY_SSL_CERT_ARN : string
}.

(** [os.environ[key]]. *)
Definition environ_get (environ : gmap string string) (key : string) : result string :=
  match environ !! key with
  | Some v => Ok v
  | None => Raise (KeyError key)
  end.

Definition required_keys : list string :=
  [ "R53_HOSTED_ZONE_ID"; "ARTIFACTS_BUCKET"; "NUCLEUS_ROOT_DOMAIN";
    "NUCLEUS_DOMAIN_PREFIX"; "NUCLEUS_SERVER_ADDRESS"; "REVERSE_PROXY_SSL_CERT_ARN" ].

(** Lines 22-27: the six reads, in source order; the first missing key
    aborts the import of the module. *)
Definition module_init (environ : gmap string string) : result Config :=
  match environ_get environ "R53_HOSTED_ZONE_ID" with
  | Raise e => Raise e
  | Ok zone =>
  match environ_get environ "ARTIFACTS_BUCKET" with
  | Raise e => Raise e
  | Ok bucket =>
  match environ_get environ "NUCLEUS_ROOT_DOMAIN" with
  | Raise e => Raise e
  | Ok root =>
  match environ_get environ "NUCLEUS_DOMAIN_PREFIX" with
  | Raise e => Raise e
  | Ok prefix =>
  match environ_get environ "NUCLEUS_SERVER_ADDRESS" with
  | Raise e => Raise e
  | Ok server =>
  match environ_get environ "REVERSE_PROXY_SSL_CERT_ARN" with
  | Raise e => Raise e
  | Ok cert =>
      Ok {| R53_HOSTED_ZONE_ID := zone;
            ARTIFACTS_BUCKET := bucket;
            NUCLEUS_ROOT_DOMAIN := root;
            NUCLEUS_DOMAIN_PREFIX := prefix;
            NUCLEUS_SERVER_ADDRESS := server;
            REVERSE_PROXY_SSL_CERT_ARN := cert |}
  end end end end end end.

(** ** The monad of the module *)

Section Source.

Context {W : Type}.
Variable cloud : Cloud W.

(** The state threaded through the module: the world of the services and
    the trace written so far (oldest entry first). *)
Definition state : Type := W * trace.

Definition M (A : Type) : Type := state -> state * result A.

Definition ret {A} (a : A) : M A := fun s => (s, Ok a).

Definition bind {A B} (m : M A) (k : A -> M B) : M B :=
  fun s =>
    match m s with
    | (s', Ok a) => k a s'
    | (s', Raise e) => (s', Raise e)
    end.

Definition raise {A} (e : exn) : M A := fun s => (s, Raise e).

(** A pure computation that may raise. *)
Definition lift {A} (r : result A) : M A := fun s => (s, r).

(** [try: body except Exception as e: handler(e)].  Everything the model
    raises is a subclass of [Exception]. *)
Definition try_except {A} (body : M A) (handler : exn -> M A) : M A :=
  fun s =>
    match body s with
    | (s', Ok a) => (s', Ok a)
    | (s', Raise e) => handler e s'
    end.

(** [try: body except ClientError as e: handler(e)]: any other exception
    passes through. *)
Definition try_except_ClientError {A} (body : M A) (handler : string -> M A) : M A :=
  fun s =>
    match body s with
    | (s', Raise (Collaborator (ClientError str))) => handler str s'
    | r => r
    end.

(** An outbound call: performed in the current world, recorded with its
    outcome, and raising what the service raised. *)
Definition perform (c : call) : M pyval :=
  fun s =>
    let '(w, t) := s in
    let '(w', o) := cloud c w in
    ((w', t ++ [Called c o]),
     match o with
     | inr v => Ok v
     | inl e => Raise (Collaborator e)
     end).

Definition log (l : level) (m : logged) : M unit :=
  fun s => let '(w, t) := s in ((w, t ++ [Logged l m]), Ok tt).

Notation "'let*' x ':=' m 'in' k" := (bind m (fun x => k))
  (at level 10, x name, m at level 100, k at level 200, only parsing).
Notation "'do*' m 'in' k" := (bind m (fun _ => k))
  (at level 10, m at level 100, k at level 200, only parsing).

(** ** The functions of the module *)

(** Lines 30-46. *)
Definition send_lifecycle_action (event : pyval) (result : string) : M unit :=
  try_except_ClientError
    (let* hook := lift (detail event "LifecycleHookName") in
     let* group := lift (detail event "AutoScalingGroupName") in
     let* token := lift (detail event "LifecycleActionToken") in
     let* instance := lift (detail event "EC2InstanceId") in
     let* response := perform
       (autoscaling_complete_lifecycle_action hook group token result instance) in
     log INFO (LogValue response))
    (fun str =>
       let message := "Error completing lifecycle action: " +:+ str in
       do* log ERROR (LogText message) in
       raise (Exception message)).

(** The list of lines 53-84. *)
Definition commands (artifactsBucket nucleusServerAddress certArn domain : string)
  : list string :=
  [ "echo ------------------------ REVERSE PROXY CONFIG ------------------------";
    "echo UPDATING PACKAGES ----------------------------------";
    "sudo yum update -y";

    "echo INSTALLING DEPENDENCIES ----------------------------------";
    "sudo yum install -y aws-cfn-bootstrap gcc openssl-devel bzip2-devel libffi-devel zlib-devel";

    "echo INSTALLING PYTHON ----------------------------------";
    "sudo wget https://www.python.org/ftp/python/3.9.9/Python-3.9.9.tgz -P /opt/python3.9";
    "cd /opt/python3.9";
    "sudo tar xzf Python-3.9.9.tgz";
    "cd Python-3.9.9";
    "sudo ./configure --prefix=/usr --enable-optimizations";
    "sudo make install";

    "echo INSTALLING REVERSE PROXY TOOLS ----------------------------------";
    "cd /opt";
    "sudo aws s3 cp s3://" +:+ artifactsBucket +:+ "/tools/tools.zip ./tools.zip";
    "sudo unzip -o tools.zip";
    "cd reverseProxy";
    "pip3 --version";
    "sudo pip3 install -r requirements.txt";
    "rpt generate-acm-yaml --cert-arn " +:+ certArn;
    "sudo rpt generate-nginx-config --domain " +:+ domain
      +:+ " --server-address " +:+ nucleusServerAddress;
    "sudo mv acm.yaml /etc/nitro_enclaves/acm.yaml";
    "sudo mv -f nginx.conf /etc/nginx/nginx.conf";

    "echo STARTING NGINX ----------------------------------";
    "systemctl start nitro-enclaves-acm.service";
    "systemctl enable nitro-enclaves-acm" ].

(** Lines 49-89. *)
Definition update_nginix_config
    (instanceId : pyval) (artifactsBucket nucleusServerAddress certArn domain : string)
  : M pyval :=
  perform (ssm_run_commands instanceId
             (commands artifactsBucket nucleusServerAddress certArn domain)
             "AWS-RunShellScript").

(** Line 119: [f"{NUCLEUS_DOMAIN_PREFIX}.{NUCLEUS_ROOT_DOMAIN}"]. *)
Definition hostname (cfg : Config) : string :=
  NUCLEUS_DOMAIN_PREFIX cfg +:+ "." +:+ NUCLEUS_ROOT_DOMAIN cfg.

Definition LAUNCHING : string := "autoscaling:EC2_INSTANCE_LAUNCHING".
Definition TERMINATING : string := "autoscaling:EC2_INSTANCE_TERMINATING".

(** Lines 124-129 and 146-151, the same in both branches. *)
Definition abandon (event : pyval) (e : exn) : M unit :=
  do* log WARNING (LogTraceback e) in
  do* log ERROR (LogFormat "Error running command: {}" e) in
  send_lifecycle_action event "ABANDON".

(** Lines 102-122, the body of the first [try]. *)
Definition launching_body (cfg : Config) (event instanceId : pyval) : M unit :=
  let* revProxyServerAddress :=
    perform (ec2_get_instance_public_dns_name instanceId) in
  do* perform (r53_update_hosted_zone_cname_record
                 (R53_HOSTED_ZONE_ID cfg) (NUCLEUS_ROOT_DOMAIN cfg)
                 (NUCLEUS_DOMAIN_PREFIX cfg) revProxyServerAddress) in
  do* update_nginix_config instanceId (ARTIFACTS_BUCKET cfg)
        (NUCLEUS_SERVER_ADDRESS cfg) (REVERSE_PROXY_SSL_CERT_ARN cfg)
        (hostname cfg) in
  send_lifecycle_action event "CONTINUE".

(** Lines 135-144, the body of the second [try]. *)
Definition terminating_body (cfg : Config) (event instanceId : pyval) : M unit :=
  let* serverAddress := perform (ec2_get_instance_public_dns_name instanceId) in
  do* perform (r53_delete_hosted_zone_cname_record
                 (R53_HOSTED_ZONE_ID cfg) (NUCLEUS_ROOT_DOMAIN cfg)
                 (NUCLEUS_DOMAIN_PREFIX cfg) serverAddress) in
  send_lifecycle_action event "CONTINUE".

(** Lines 92-155.  The module globals are the [cfg] the import produced. *)
Definition handler (cfg : Config) (event context : pyval) : M unit :=
  do* log INFO (LogEvent event) in
  let* instanceId := lift (detail event "EC2InstanceId") in
  let* transition := lift (detail event "LifecycleTransition") in
  do* (if eq_str transition LAUNCHING then
         try_except (launching_body cfg event instanceId) (abandon event)
       else if eq_str transition TERMINATING then
         try_except (terminating_body cfg event instanceId) (abandon event)
       else ret tt) in
  log INFO (LogText "Execution Complete").

End Source.

Arguments handler {W} cloud cfg event context _.
Arguments send_lifecycle_action {W} cloud event result _.
Arguments update_nginix_config {W} cloud instanceId _ _ _ _ _.

(** ** The process *)

(** The Lambda runtime imports the module once and then calls [handler]
    once per event; an invocation that raises is reported and the next
    event is served.  Each invocation is returned with its own trace.
    Of the import, [process] follows the six reads of lines 22-27
    ([module_init]); lines 5-20 before them are taken to have completed
    ([module_import] below takes their outcome as well). *)
Fixpoint serve {W} (cloud : Cloud W) (cfg : Config) (events : list pyval) (w : W)
  : W * list (trace * result unit) :=
  match events with
  | [] => (w, [])
  | event :: events' =>
      let '((w', t), r) := handler cloud cfg event PNone (w, []) in
      let '(w'', rest) := serve cloud cfg events' w' in
      (w'', (t, r) :: rest)
  end.

Definition process {W} (cloud : Cloud W) (environ : gmap string string)
    (events : list pyval) (w : W) : result (W * list (trace * result unit)) :=
  match module_init environ with
  | Raise e => Raise e
  | Ok cfg => Ok (serve cloud cfg events w)
  end.


(** * The vocabulary of the statements *)

(** ** Reading the event *)

(** The two reads of lines 96-97 succeed, with these values. *)
Definition dispatches (event instance transition : pyval) : Prop :=
  detail event "EC2InstanceId" = Ok instance /\
  detail event "LifecycleTransition" = Ok transition.

(** The three remaining reads of [send_lifecycle_action] succeed. *)
Definition identifies (event hook group token : pyval) : Prop :=
  detail event "LifecycleHookName" = Ok hook /\
  detail event "AutoScalingGroupName" = Ok group /\
  detail event "LifecycleActionToken" = Ok token.

Definition recognized (transition : pyval) : Prop :=
  transition = PStr LAUNCHING \/ transition = PStr TERMINATING.

(** The report call [send_lifecycle_action] makes for an event. *)
Definition report (hook group token : pyval) (result : string) (instance : pyval) : call :=
  autoscaling_complete_lifecycle_action hook group token result instance.

(** The event has no ["detail"] key. *)
Definition lacks_detail (event : pyval) : Prop :=
  getitem event "detail" = Raise (KeyError "detail").

(** The event has a ["detail"], which has no [key]. *)
Definition lacks (event : pyval) (key : string) : Prop :=
  exists d, getitem event "detail" = Ok d /\ getitem d key = Raise (KeyError key).

(** What [send_lifecycle_action] raises when its call raises [e]
    (lines 41-44): a [ClientError] is wrapped, anything else passes. *)
Definition raised_by_report (e : cexn) : exn :=
  match e with
  | ClientError str => Exception ("Error completing lifecycle action: " +:+ str)
  | OtherError str => Collaborator (OtherError str)
  end.

(** The first failing call of a list of calls, with the calls before and
    after it. *)
Fixpoint first_failure (l : list (call * outcome))
  : option (list (call * outcome) * (call * cexn) * list (call * outcome)) :=
  match l with
  | [] => None
  | (c, inl e) :: l' => Some ([], (c, e), l')
  | (c, inr v) :: l' =>
      match first_failure l' with
      | Some (pre, f, post) => Some ((c, inr v) :: pre, f, post)
      | None => None
      end
  end.

(** What the handler returns after the ABANDON report came back with [o]. *)
Definition after_abandon (o : outcome) : result unit :=
  match o with
  | inr _ => Ok tt
  | inl e => Raise (raised_by_report e)
  end.

(** The shape of every invocation on an event with a recognized
    transition that carries its four identifiers: some calls that
    succeed, none of them a report, and then either the successful
    CONTINUE report, or a call that raises (possibly the CONTINUE report)
    followed by the ABANDON report, whose outcome is the handler's. *)
Inductive invocation (hook group token instance : pyval)
  : list (call * outcome) -> result unit -> Prop :=
| continued pre v :
    Forall succeeded pre ->
    Forall (fun co => is_report co = false) pre ->
    invocation hook group token instance
      (pre ++ [ (report hook group token "CONTINUE" instance, inr v) ]) (Ok tt)
| abandoned pre c e o :
    Forall succeeded pre ->
    Forall (fun co => is_report co = false) pre ->
    c = report hook group token "CONTINUE" instance \/ is_report (c, inl e) = false ->
    invocation hook group token instance
      (pre ++ [ (c, inl e); (report hook group token "ABANDON" instance, o) ])
      (after_abandon o).

(** [preserves I E m]: run from a trace that satisfies [I], [m] leaves a
    trace that satisfies [I], and whatever it raises satisfies [E]. *)
Definition preserves {W A} (I : trace -> Prop) (E : exn -> Prop) (m : @M W A) : Prop :=
  forall w t, I t ->
    I (m (w, t)).1.2 /\
    match (m (w, t)).2 with Raise e => E e | Ok _ => True end.

(** The exceptions of the module's own subscripts name a key of the
    event, never one of the environment. *)
Definition event_keys : list string :=
  [ "detail"; "EC2InstanceId"; "LifecycleTransition"; "LifecycleHookName";
    "AutoScalingGroupName"; "LifecycleActionToken" ].

Definition names_event_key (e : exn) : Prop :=
  match e with
  | KeyError key => In key event_keys
  | _ => True
  end.

(** ** The hostname *)

(** Modelled from the spec: [aws_utils.r53], which builds the name of the
    CNAME record from the root domain and the prefix the handler passes,
    is not among the sources.  The spec gives the name: "fixed hostname =
    [{prefix}.{root_domain}]". *)
Definition r53_record_name (rootDomain domainPrefix : string) : string :=
  domainPrefix +:+ "." +:+ rootDomain.

(** The call, if it is a DNS upsert, a DNS delete or a provisioning call,
    is made for the hostname of the configuration: the handler passes the
    configured root domain and prefix, so that the record is the one
    named [hostname cfg]; the command list holds the command of line 77
    with [hostname cfg] as its [--domain] and the configured upstream
    address. *)
Definition uses_hostname (cfg : Config) (co : call * outcome) : Prop :=
  match co.1 with
  | r53_update_hosted_zone_cname_record _ root prefix _
  | r53_delete_hosted_zone_cname_record _ root prefix _ =>
      root = NUCLEUS_ROOT_DOMAIN cfg /\
      prefix = NUCLEUS_DOMAIN_PREFIX cfg /\
      r53_record_name root prefix = hostname cfg
  | ssm_run_commands _ cmds _ =>
      In ("sudo rpt generate-nginx-config --domain " +:+ hostname cfg
            +:+ " --server-address " +:+ NUCLEUS_SERVER_ADDRESS cfg) cmds
  | _ => True
  end.

(** ** The provisioning script *)

(** The stages of the remote provisioning sequence, in the words of the
    spec, each with the commands that carry it out. *)
Module Stages.

Definition banner : list string :=
  [ "echo ------------------------ REVERSE PROXY CONFIG ------------------------" ].

Definition update_os_packages : list string :=
  [ "echo UPDATING PACKAGES ----------------------------------";
    "sudo yum update -y" ].

Definition install_build_dependencies : list string :=
  [ "echo INSTALLING DEPENDENCIES ----------------------------------";
    "sudo yum install -y aws-cfn-bootstrap gcc openssl-devel bzip2-devel libffi-devel zlib-devel" ].

Definition install_interpreter_from_source : list string :=
  [ "echo INSTALLING PYTHON ----------------------------------";
    "sudo wget https://www.python.org/ftp/python/3.9.9/Python-3.9.9.tgz -P /opt/python3.9";
    "cd /opt/python3.9";
    "sudo tar xzf Python-3.9.9.tgz";
    "cd Python-3.9.9";
    "sudo ./configure --prefix=/usr --enable-optimizations";
    "sudo make install" ].

Definition fetch_and_unpack_tools (bucket : string) : list string :=
  [ "echo INSTALLING REVERSE PROXY TOOLS ----------------------------------";
    "cd /opt";
    "sudo aws s3 cp s3://" +:+ bucket +:+ "/tools/tools.zip ./tools.zip";
    "sudo unzip -o tools.zip" ].

Definition install_tool_dependencies : list string :=
  [ "cd reverseProxy";
    "pip3 --version";
    "sudo pip3 install -r requirements.txt" ].

Definition generate_certificate_manager_config (certificate : string) : list string :=
  [ "rpt generate-acm-yaml --cert-arn " +:+ certificate ].

Definition generate_reverse_proxy_config (host upstream : string) : list string :=
  [ "sudo rpt generate-nginx-config --domain " +:+ host
      +:+ " --server-address " +:+ upstream ].

Definition move_generated_files : list string :=
  [ "sudo mv acm.yaml /etc/nitro_enclaves/acm.yaml";
    "sudo mv -f nginx.conf /etc/nginx/nginx.conf" ].

Definition start_and_enable_services : list string :=
  [ "echo STARTING NGINX ----------------------------------";
    "systemctl start nitro-enclaves-acm.service";
    "systemctl enable nitro-enclaves-acm" ].

(** The order the spec prescribes. *)
Definition sequence (bucket upstream certificate host : string) : list string :=
  banner
  ++ update_os_packages
  ++ install_build_dependencies
  ++ install_interpreter_from_source
  ++ fetch_and_unpack_tools bucket
  ++ install_tool_dependencies
  ++ generate_certificate_manager_config certificate
  ++ generate_reverse_proxy_config host upstream
  ++ move_generated_files
  ++ start_and_enable_services.

End Stages.

(** ** A scripted cloud, for the examples *)

Definition example_instance : pyval := PStr "i-0123456789abcdef0".
Definition example_hook : pyval := PStr "reverse-proxy-hook".
Definition example_group : pyval := PStr "reverse-proxy-asg".
Definition example_token : pyval := PStr "87654321-4321-4321-4321-210987654321".
Definition example_address : pyval := PStr "ec2-203-0-113-7.compute-1.amazonaws.com".

(** The world counts the calls made so far.  The metadata lookup answers
    with a fixed public name, every other call with [None]; [fails] picks
    the calls that raise instead. *)
Definition answer (c : call) : pyval :=
  match c with
  | ec2_get_instance_public_dns_name _ => example_address
  | _ => PNone
  end.

Definition scripted (fails : call -> option cexn) : Cloud nat :=
  fun c n =>
    (S n, match fails c with Some e => inl e | None => inr (answer c) end).

Definition nothing_fails (c : call) : option cexn := None.

(** The report with the given result is refused by the control plane. *)
Definition report_fails (result : string) (c : call) : option cexn :=
  match c with
  | autoscaling_complete_lifecycle_action _ _ _ r _ =>
      if bool_decide (r = result) then Some (ClientError "ValidationError") else None
  | _ => None
  end.

Definition lookup_fails (c : call) : option cexn :=
  match c with
  | ec2_get_instance_public_dns_name _ => Some (OtherError "no such instance")
  | _ => None
  end.

(** A well-formed lifecycle event. *)
Definition lifecycle_event (transition : pyval) : pyval :=
  PDict {[ "detail" := PDict (list_to_map
    [ ("EC2InstanceId", example_instance);
      ("LifecycleTransition", transition);
      ("LifecycleHookName", example_hook);
      ("AutoScalingGroupName", example_group);
      ("LifecycleActionToken", example_token) ]) ]}.

(** The same event without its hook name. *)
Definition event_without_hook (transition : pyval) : pyval :=
  PDict {[ "detail" := PDict (list_to_map
    [ ("EC2InstanceId", example_instance);
      ("LifecycleTransition", transition);
      ("AutoScalingGroupName", example_group);
      ("LifecycleActionToken", example_token) ]) ]}.

(** The same event without its instance identifier. *)
Definition event_without_instance (transition : pyval) : pyval :=
  PDict {[ "detail" := PDict (list_to_map
    [ ("LifecycleTransition", transition);
      ("LifecycleHookName", example_hook);
      ("AutoScalingGroupName", example_group);
      ("LifecycleActionToken", example_token) ]) ]}.

(** An event of another kind, without ["detail"]. *)
Definition event_without_detail : pyval :=
  PDict {[ "source" := PStr "aws.events" ]}.

Definition LAUNCH_ERROR : string := "autoscaling:EC2_INSTANCE_LAUNCH_ERROR".

Definition example_config : Config :=
  {| R53_HOSTED_ZONE_ID := "Z0123456789ABCDEFGHIJ";
     ARTIFACTS_BUCKET := "nucleus-artifacts";
     NUCLEUS_ROOT_DOMAIN := "example.com";
     NUCLEUS_DOMAIN_PREFIX := "nucleus";
     NUCLEUS_SERVER_ADDRESS := "10.0.0.12";
     REVERSE_PROXY_SSL_CERT_ARN := "arn:aws:acm:us-east-1:111122223333:certificate/abc" |}.

Definition example_environ : gmap string string :=
  list_to_map
    [ ("R53_HOSTED_ZONE_ID", "Z0123456789ABCDEFGHIJ");
      ("ARTIFACTS_BUCKET", "nucleus-artifacts");
      ("NUCLEUS_ROOT_DOMAIN", "example.com");
      ("NUCLEUS_DOMAIN_PREFIX", "nucleus");
      ("NUCLEUS_SERVER_ADDRESS", "10.0.0.12") ].


(** A termination on which the control plane refuses the ABANDON report
    after the lookup failed. *)
Definition lookup_and_abandon_fail (c : call) : option cexn :=
  match lookup_fails c with
  | Some e => Some e
  | None => report_fails "ABANDON" c
  end.

(** The invocations the examples run, each from world [0] and an empty
    trace. *)
Definition launch_run : state * result unit :=
  handler (scripted nothing_fails) example_config
    (lifecycle_event (PStr LAUNCHING)) PNone (0, []).

Definition termination_run : state * result unit :=
  handler (scripted nothing_fails) example_config
    (lifecycle_event (PStr TERMINATING)) PNone (0, []).

Definition refused_launch_run : state * result unit :=
  handler (scripted (report_fails "CONTINUE")) example_config
    (lifecycle_event (PStr LAUNCHING)) PNone (0, []).

Definition failed_lookup_run : state * result unit :=
  handler (scripted lookup_fails) example_config
    (lifecycle_event (PStr LAUNCHING)) PNone (0, []).

Definition doomed_run : state * result unit :=
  handler (scripted lookup_and_abandon_fail) example_config
    (lifecycle_event (PStr TERMINATING)) PNone (0, []).

(** * Properties *)

(** ** Basic facts *)

Lemma eq_str_true v s : eq_str v s = true <-> v = PStr s.
Proof.
  destruct v; simpl; try (split; [discriminate | congruence]).
  rewrite bool_decide_eq_true. split; congruence.
Qed.

Lemma eq_str_LAUNCHING : eq_str (PStr LAUNCHING) LAUNCHING = true.
Proof. reflexivity. Qed.

Lemma eq_str_TERMINATING :
  eq_str (PStr TERMINATING) LAUNCHING = false /\
  eq_str (PStr TERMINATING) TERMINATING = true.
Proof. split; reflexivity. Qed.

Arguments detail : simpl never.
Arguments commands : simpl never.
Arguments hostname : simpl never.
Arguments eq_str : simpl never.

Section Runs.

Context {W : Type} (cloud : Cloud W).

Lemma perform_run c w t w' o :
  cloud c w = (w', o) ->
  perform cloud c (w, t) =
    ((w', t ++ [Called c o]),
     match o with inr v => Ok v | inl e => Raise (Collaborator e) end).
Proof. intros H. unfold perform. now rewrite H. Qed.

(** [send_lifecycle_action] on an event that carries the four fields: one
    call, whose outcome decides between returning, raising the wrapped
    [ClientError] and letting any other exception through. *)
Lemma send_lifecycle_action_run event instance transition hook group token result w t :
  dispatches event instance transition ->
  identifies event hook group token ->
  send_lifecycle_action cloud event result (w, t) =
    let c := report hook group token result instance in
    match cloud c w with
    | (w', inr v) =>
        ((w', t ++ [Called c (inr v); Logged INFO (LogValue v)]), Ok tt)
    | (w', inl (ClientError str)) =>
        let message := "Error completing lifecycle action: " +:+ str in
        ((w', t ++ [Called c (inl (ClientError str)); Logged ERROR (LogText message)]),
         Raise (Exception message))
    | (w', inl (OtherError str)) =>
        ((w', t ++ [Called c (inl (OtherError str))]),
         Raise (Collaborator (OtherError str)))
    end.
Proof.
  intros [Hi _] (Hh & Hg & Hk).
  unfold send_lifecycle_action, try_except_ClientError, bind, lift, log, raise, perform, report.
  rewrite Hh, Hg, Hk, Hi.
  destruct (cloud _ w) as [w' [[str|str]|v]]; simpl;
    rewrite <- ?app_assoc; reflexivity.
Qed.

End Runs.

Ltac case_cloud cloud :=
  match goal with
  | |- context [cloud ?c ?w] =>
      let E := fresh "Ecall" in
      destruct (cloud c w) as [? [[?|?]|?]] eqn:E; simpl
  end.

(** ** The two successful paths *)

Section Success.

Context {W : Type} (cloud : Cloud W) (cfg : Config).
Variables (event context instance hook group token : pyval).
Hypothesis Hident : identifies event hook group token.

(** C1.  An event with transition LAUNCHING, on which the metadata lookup,
    the DNS upsert, the provisioning call and the report all succeed: the
    handler returns, and its outbound calls are, in this order, the lookup
    of the instance's public name, the upsert of the record given by the
    configured zone, root domain and prefix to the resolved address, the
    provisioning call on the instance with the command list built for the
    configured hostname, and one CONTINUE report, which is the only report
    call. *)
Theorem launching_calls_in_order w0 w1 w2 w3 w4 addr r2 r3 r4 :
  dispatches event instance (PStr LAUNCHING) ->
  cloud (ec2_get_instance_public_dns_name instance) w0 = (w1, inr addr) ->
  cloud (r53_update_hosted_zone_cname_record (R53_HOSTED_ZONE_ID cfg)
           (NUCLEUS_ROOT_DOMAIN cfg) (NUCLEUS_DOMAIN_PREFIX cfg) addr) w1
    = (w2, inr r2) ->
  cloud (ssm_run_commands instance
           (commands (ARTIFACTS_BUCKET cfg) (NUCLEUS_SERVER_ADDRESS cfg)
              (REVERSE_PROXY_SSL_CERT_ARN cfg) (hostname cfg))
           "AWS-RunShellScript") w2 = (w3, inr r3) ->
  cloud (report hook group token "CONTINUE" instance) w3 = (w4, inr r4) ->
  exists t,
    handler cloud cfg event context (w0, []) = ((w4, t), Ok tt) /\
    calls t =
      [ (ec2_get_instance_public_dns_name instance, inr addr);
        (r53_update_hosted_zone_cname_record (R53_HOSTED_ZONE_ID cfg)
           (NUCLEUS_ROOT_DOMAIN cfg) (NUCLEUS_DOMAIN_PREFIX cfg) addr, inr r2);
        (ssm_run_commands instance
           (commands (ARTIFACTS_BUCKET cfg) (NUCLEUS_SERVER_ADDRESS cfg)
              (REVERSE_PROXY_SSL_CERT_ARN cfg) (hostname cfg))
           "AWS-RunShellScript", inr r3);
        (report hook group token "CONTINUE" instance, inr r4) ] /\
    report_calls t = [ (report hook group token "CONTINUE" instance, inr r4) ].
Proof.
  intros Hd H1 H2 H3 H4.
  unfold handler, launching_body, update_nginix_config, try_except, bind, lift, log.
  destruct Hd as [Hi Ht]. rewrite Hi, Ht, eq_str_LAUNCHING.
  rewrite (perform_run _ _ _ _ _ _ H1), (perform_run _ _ _ _ _ _ H2),
    (perform_run _ _ _ _ _ _ H3).
  simpl.
  rewrite (send_lifecycle_action_run cloud event instance _ hook group token
             _ _ _ (conj Hi Ht) Hident).
  simpl. rewrite H4. simpl. eexists. split; [reflexivity|]. split; reflexivity.
Qed.

(** C2.  An event with transition TERMINATING, on which the metadata
    lookup, the DNS delete and the report all succeed: the handler
    returns, and its outbound calls are the lookup of the instance's
    public name, the delete of the record given by the configured zone,
    root domain and prefix together with the resolved address, and one
    CONTINUE report; no provisioning call is among them. *)
Theorem terminating_calls_in_order w0 w1 w2 w3 addr r2 r3 :
  dispatches event instance (PStr TERMINATING) ->
  cloud (ec2_get_instance_public_dns_name instance) w0 = (w1, inr addr) ->
  cloud (r53_delete_hosted_zone_cname_record (R53_HOSTED_ZONE_ID cfg)
           (NUCLEUS_ROOT_DOMAIN cfg) (NUCLEUS_DOMAIN_PREFIX cfg) addr) w1
    = (w2, inr r2) ->
  cloud (report hook group token "CONTINUE" instance) w2 = (w3, inr r3) ->
  exists t,
    handler cloud cfg event context (w0, []) = ((w3, t), Ok tt) /\
    calls t =
      [ (ec2_get_instance_public_dns_name instance, inr addr);
        (r53_delete_hosted_zone_cname_record (R53_HOSTED_ZONE_ID cfg)
           (NUCLEUS_ROOT_DOMAIN cfg) (NUCLEUS_DOMAIN_PREFIX cfg) addr, inr r2);
        (report hook group token "CONTINUE" instance, inr r3) ] /\
    report_calls t = [ (report hook group token "CONTINUE" instance, inr r3) ] /\
    forall i cmds doc o, ~ In (ssm_run_commands i cmds doc, o) (calls t).
Proof.
  intros Hd H1 H2 H3.
  unfold handler, terminating_body, try_except, bind, lift, log.
  destruct Hd as [Hi Ht]. rewrite Hi, Ht.
  destruct eq_str_TERMINATING as [-> ->].
  rewrite (perform_run _ _ _ _ _ _ H1), (perform_run _ _ _ _ _ _ H2).
  simpl.
  rewrite (send_lifecycle_action_run cloud event instance _ hook group token
             _ _ _ (conj Hi Ht) Hident).
  simpl. rewrite H3. simpl. eexists. split; [reflexivity|].
  repeat split; try reflexivity.
  intros i cmds doc o Hin. simpl in Hin.
  unfold report in Hin. intuition congruence.
Qed.

End Success.

(** ** Failures *)

Lemma first_failure_split l pre c e post :
  l = pre ++ (c, inl e) :: post ->
  Forall succeeded pre ->
  first_failure l = Some (pre, (c, e), post).
Proof.
  intros -> Hpre. induction Hpre as [|[c' [e'|v]] pre Hx _ IH]; simpl.
  - reflexivity.
  - destruct Hx.
  - now rewrite IH.
Qed.

Lemma first_failure_none l : Forall succeeded l -> first_failure l = None.
Proof.
  induction 1 as [|[c [e|v]] l Hx _ IH]; simpl; [reflexivity | destruct Hx |].
  now rewrite IH.
Qed.


Ltac explore cloud Hd Hident :=
  unfold handler, launching_body, terminating_body, abandon,
    update_nginix_config, try_except, bind, lift, log, ret, perform;
  rewrite ?(proj1 Hd), ?(proj2 Hd);
  repeat first
    [ rewrite (send_lifecycle_action_run cloud _ _ _ _ _ _ _ _ _ Hd Hident)
    | case_cloud cloud
    | progress simpl ].

Section Recognized.

Context {W : Type} (cloud : Cloud W) (cfg : Config).
Variables (event context instance transition hook group token : pyval).
Hypothesis Hd : dispatches event instance transition.
Hypothesis Hrec : recognized transition.
Hypothesis Hident : identifies event hook group token.

Ltac shape_side :=
  lazymatch goal with
  | |- Forall _ _ => repeat constructor
  | |- _ \/ _ => first [left; reflexivity | right; reflexivity]
  end.

Ltac close_shape :=
  first
    [ apply (continued _ _ _ _ []) | apply (continued _ _ _ _ [_])
    | apply (continued _ _ _ _ [_; _]) | apply (continued _ _ _ _ [_; _; _])
    | apply (abandoned _ _ _ _ []) | apply (abandoned _ _ _ _ [_])
    | apply (abandoned _ _ _ _ [_; _]) | apply (abandoned _ _ _ _ [_; _; _]) ];
  shape_side.

Lemma handler_invocation w s r :
  handler cloud cfg event context (w, []) = (s, r) ->
  invocation hook group token instance (calls s.2) r.
Proof.
  destruct Hrec as [-> | ->].
  - rewrite ?eq_str_LAUNCHING. explore cloud Hd Hident.
    all: intros [= <- <-]; simpl; close_shape.
  - destruct eq_str_TERMINATING as [E1 E2]. rewrite ?E1, ?E2.
    explore cloud Hd Hident.
    all: intros [= <- <-]; simpl; close_shape.
Qed.

(** C3, as amended.  An event with a recognized transition that carries
    the hook name, the group name and the action token: the first
    outbound call that raises is followed by exactly one further call, the
    ABANDON report, and the handler returns without raising exactly when
    that report succeeds. *)
Theorem first_failure_then_abandon w s r pre c e post :
  handler cloud cfg event context (w, []) = (s, r) ->
  calls s.2 = pre ++ (c, inl e) :: post ->
  Forall succeeded pre ->
  exists o,
    post = [ (report hook group token "ABANDON" instance, o) ] /\
    (r = Ok tt <-> returned o).
Proof.
  intros Hrun Hcalls Hpre.
  apply first_failure_split in Hcalls; [|assumption].
  destruct (handler_invocation _ _ _ Hrun) as [pre' v Hok _ | pre' c' e' o Hok _ _].
  - rewrite first_failure_none in Hcalls; [discriminate|].
    apply Forall_app. split; [assumption|]. repeat constructor.
  - rewrite (first_failure_split _ pre' c' e' _ eq_refl Hok) in Hcalls.
    injection Hcalls as <- <- <- <-. exists o. split; [reflexivity|].
    destruct o as [[?|?]|?]; simpl; split; intros; try discriminate; tauto.
Qed.


(** C9, as amended.  An event with a recognized transition that carries
    the hook name, the group name and the action token.  If the ABANDON
    report raises, the handler raises what [send_lifecycle_action] made of
    it.  If the CONTINUE report raises, the exception is caught: the next
    and last call is the ABANDON report, and the handler returns without
    raising exactly when that one succeeds. *)
Theorem report_failures w s r :
  handler cloud cfg event context (w, []) = (s, r) ->
  (forall e,
     In (report hook group token "ABANDON" instance, inl e) (calls s.2) ->
     r = Raise (raised_by_report e)) /\
  (forall e,
     In (report hook group token "CONTINUE" instance, inl e) (calls s.2) ->
     exists pre o,
       calls s.2 = pre ++ [ (report hook group token "CONTINUE" instance, inl e);
                            (report hook group token "ABANDON" instance, o) ] /\
       (r = Ok tt <-> returned o)).
Proof.
  intros Hrun.
  assert (Hfail : forall (l : list (call * outcome)) c e,
             Forall succeeded l -> ~ In (c, inl e) l).
  { intros l c e Hl Hin. rewrite Forall_forall in Hl.
    apply list_elem_of_In, Hl in Hin. exact Hin. }
  destruct (handler_invocation _ _ _ Hrun) as [pre v Hok _ | pre c e o Hok _ Hc];
    split; intros e' Hin; apply in_app_or in Hin;
    destruct Hin as [Hin | Hin]; try (now apply Hfail in Hin); simpl in Hin.
  - decompose [or] Hin; try tauto; discriminate.
  - decompose [or] Hin; try tauto; discriminate.
  - destruct Hin as [Hin | [Hin | []]].
    + injection Hin as -> _. destruct Hc as [Hc | Hc]; discriminate.
    + now injection Hin as ->.
  - destruct Hin as [Hin | [Hin | []]]; [|discriminate].
    injection Hin as -> ->. exists pre, o. split; [reflexivity|].
    destruct o as [[?|?]|?]; simpl; split; intros; try discriminate; tauto.
Qed.

End Recognized.

(** ** Events the dispatcher does not act on *)

Lemma not_recognized transition :
  ~ recognized transition ->
  eq_str transition LAUNCHING = false /\ eq_str transition TERMINATING = false.
Proof.
  intros Hn. split; apply not_true_is_false; rewrite eq_str_true;
    intros ->; apply Hn; [left | right]; reflexivity.
Qed.

Section Ignored.

Context {W : Type} (cloud : Cloud W) (cfg : Config).
Variables (event context : pyval).

(** C4, as amended.  An event that carries an instance identifier and a
    transition value other than the two recognized strings: the handler
    returns without raising, it makes no outbound call at all (no DNS, no
    provisioning, no report), and the world of the services is the one it
    started in. *)
Theorem unrecognized_transition_is_ignored instance transition w :
  dispatches event instance transition ->
  ~ recognized transition ->
  exists t,
    handler cloud cfg event context (w, []) = ((w, t), Ok tt) /\
    calls t = [].
Proof.
  intros [Hi Ht] Hn. apply not_recognized in Hn as [E1 E2].
  unfold handler, bind, lift, log, ret. rewrite Hi, Ht, E1, E2. simpl.
  eexists. split; reflexivity.
Qed.

(** C10.  An event without ["detail"], or whose ["detail"] has no
    ["EC2InstanceId"] or no ["LifecycleTransition"]: the handler raises
    the [KeyError] of the missing key right after logging the event;
    there is no outbound call (no DNS, no provisioning, no report, so no
    ABANDON either) and the world of the services is the one it started
    in. *)
Theorem missing_dispatch_field_raises w :
  lacks_detail event \/ lacks event "EC2InstanceId" \/ lacks event "LifecycleTransition" ->
  exists key t,
    In key ["detail"; "EC2InstanceId"; "LifecycleTransition"] /\
    handler cloud cfg event context (w, []) = ((w, t), Raise (KeyError key)) /\
    calls t = [].
Proof.
  unfold lacks_detail, lacks, handler, bind, lift, log.
  intros [H | [(d & Hd & H) | (d & Hd & H)]].
  - exists "detail". eexists. split; [simpl; tauto|].
    unfold detail. rewrite H. simpl. split; reflexivity.
  - exists "EC2InstanceId". eexists. split; [simpl; tauto|].
    unfold detail. rewrite Hd, H. simpl. split; reflexivity.
  - unfold detail. rewrite Hd, H.
    destruct (getitem d "EC2InstanceId") as [i | e] eqn:Hi.
    + exists "LifecycleTransition". eexists. split; [simpl; tauto|].
      simpl. split; reflexivity.
    + assert (e = KeyError "EC2InstanceId") as ->.
      { destruct d; try discriminate. simpl in Hi.
        destruct (d !! "EC2InstanceId"); congruence. }
      exists "EC2InstanceId". eexists. split; [simpl; tauto|].
      simpl. split; reflexivity.
Qed.

End Ignored.

(** ** Invariants of the monad *)

Lemma event_keys_not_required key :
  In key event_keys -> ~ In key required_keys.
Proof.
  assert (H : Forall (fun k => k ∉ required_keys) event_keys).
  { apply (bool_decide_unpack _). vm_compute. exact Logic.I. }
  rewrite Forall_forall in H. intros Hin Hreq.
  apply list_elem_of_In in Hin, Hreq. exact (H key Hin Hreq).
Qed.

Lemma calls_app t1 t2 : calls (t1 ++ t2) = calls t1 ++ calls t2.
Proof.
  induction t1 as [|[c o|l m] t1 IH]; simpl; [reflexivity | | assumption].
  now rewrite IH.
Qed.

Lemma calls_log t l m : calls (t ++ [Logged l m]) = calls t.
Proof. rewrite calls_app. apply app_nil_r. Qed.

Lemma detail_raises event key e :
  detail event key = Raise e ->
  e = KeyError "detail" \/ e = KeyError key \/ e = TypeError.
Proof.
  unfold detail, getitem.
  destruct event; try (intros [= <-]; tauto).
  destruct (d !! "detail") as [[]|]; try (intros [= <-]; tauto).
  destruct (d0 !! key); [discriminate | intros [= <-]; tauto].
Qed.

Section Preservation.

Context {W : Type} (cloud : Cloud W).
Variables (I : trace -> Prop) (E : exn -> Prop).

Lemma preserves_ret {A} (a : A) : preserves I E (@ret W A a).
Proof. intros w t Ht. simpl. tauto. Qed.

Lemma preserves_raise {A} e : E e -> preserves I E (@raise W A e).
Proof. intros He w t Ht. simpl. tauto. Qed.

Lemma preserves_lift {A} (r : result A) :
  (forall e, r = Raise e -> E e) -> preserves I E (@lift W A r).
Proof. intros Hr w t Ht. simpl. split; [assumption|]. destruct r; auto. Qed.

Lemma preserves_log l m :
  (forall t, I t -> I (t ++ [Logged l m])) -> preserves I E (@log W l m).
Proof. intros Hl w t Ht. simpl. auto. Qed.

Lemma preserves_perform c :
  (forall t o, I t -> I (t ++ [Called c o])) ->
  (forall e, E (Collaborator e)) ->
  preserves I E (perform cloud c).
Proof.
  intros Hc He w t Ht. unfold perform.
  destruct (cloud c w) as [w' [e|v]]; simpl; auto.
Qed.

Lemma preserves_bind {A B} (m : M A) (k : A -> @M W B) :
  preserves I E m -> (forall a, preserves I E (k a)) -> preserves I E (bind m k).
Proof.
  intros Hm Hk w t Ht. unfold bind.
  specialize (Hm w t Ht). destruct (m (w, t)) as [[w' t'] [a|e]]; simpl in *.
  - apply Hk, Hm.
  - exact Hm.
Qed.

Lemma preserves_try_except {A} E' (body : @M W A) handler :
  preserves I E' body -> (forall e, preserves I E (handler e)) ->
  preserves I E (try_except body handler).
Proof.
  intros Hb Hh w t Ht. unfold try_except.
  specialize (Hb w t Ht). destruct (body (w, t)) as [[w' t'] [a|e]]; simpl in *.
  - tauto.
  - apply Hh, Hb.
Qed.

Lemma preserves_try_except_ClientError {A} (body : @M W A) handler :
  preserves I E body -> (forall str, preserves I E (handler str)) ->
  preserves I E (try_except_ClientError body handler).
Proof.
  intros Hb Hh w t Ht. unfold try_except_ClientError.
  specialize (Hb w t Ht).
  destruct (body (w, t)) as [[w' t'] [a|[| |[str|str]|]]]; simpl in *; try exact Hb.
  apply Hh, Hb.
Qed.

(** The whole handler, for an invariant that every log line keeps, that
    every call the handler can make keeps, and for exceptions that
    include those of the services, of the subscripts and of line 44. *)
Hypothesis I_log : forall t l m, I t -> I (t ++ [Logged l m]).
Hypothesis E_collaborator : forall e, E (Collaborator e).
Hypothesis E_subscript : forall e, names_event_key e -> E e.
Hypothesis E_exception : forall message, E (Exception message).

Lemma preserves_logging l m : preserves I E (@log W l m).
Proof. apply preserves_log. intros. now apply I_log. Qed.

Lemma preserves_detail event key :
  In key event_keys -> preserves I E (@lift W _ (detail event key)).
Proof.
  intros Hk. apply preserves_lift. intros e He. apply E_subscript.
  apply detail_raises in He as [-> | [-> | ->]]; simpl; tauto.
Qed.

Lemma preserves_send_lifecycle_action event result :
  (forall t hook group token instance o, I t ->
     I (t ++ [Called (report hook group token result instance) o])) ->
  preserves I E (send_lifecycle_action cloud event result).
Proof.
  intros Hc. unfold send_lifecycle_action.
  apply preserves_try_except_ClientError.
  - repeat (apply preserves_bind; [apply preserves_detail; simpl; tauto | intros ?]).
    apply preserves_bind; [|intros ?; apply preserves_logging].
    apply preserves_perform; [|assumption]. intros; now apply Hc.
  - intros str. apply preserves_bind; [apply preserves_logging|].
    intros _. apply preserves_raise, E_exception.
Qed.

Lemma preserves_handler cfg event context :
  (forall t c o, I t ->
     match c with
     | r53_update_hosted_zone_cname_record zone root prefix _ =>
         zone = R53_HOSTED_ZONE_ID cfg /\ root = NUCLEUS_ROOT_DOMAIN cfg /\
         prefix = NUCLEUS_DOMAIN_PREFIX cfg
     | r53_delete_hosted_zone_cname_record zone root prefix _ =>
         zone = R53_HOSTED_ZONE_ID cfg /\ root = NUCLEUS_ROOT_DOMAIN cfg /\
         prefix = NUCLEUS_DOMAIN_PREFIX cfg
     | ssm_run_commands _ cmds document =>
         cmds = commands (ARTIFACTS_BUCKET cfg) (NUCLEUS_SERVER_ADDRESS cfg)
                  (REVERSE_PROXY_SSL_CERT_ARN cfg) (hostname cfg) /\
         document = "AWS-RunShellScript"
     | autoscaling_complete_lifecycle_action _ _ _ result _ =>
         result = "CONTINUE" \/ result = "ABANDON"
     | ec2_get_instance_public_dns_name _ => True
     end ->
     I (t ++ [Called c o])) ->
  preserves I E (handler cloud cfg event context).
Proof.
  intros Hc.
  assert (Hsend : forall result, result = "CONTINUE" \/ result = "ABANDON" ->
            preserves I E (send_lifecycle_action cloud event result)).
  { intros result Hr. apply preserves_send_lifecycle_action.
    intros. apply Hc; assumption. }
  assert (Habandon : forall e, preserves I E (abandon cloud event e)).
  { intros e. unfold abandon.
    repeat (apply preserves_bind; [apply preserves_logging | intros _]).
    apply Hsend. tauto. }
  unfold handler.
  apply preserves_bind; [apply preserves_logging | intros _].
  apply preserves_bind; [apply preserves_detail; simpl; tauto | intros instance].
  apply preserves_bind; [apply preserves_detail; simpl; tauto | intros transition].
  apply preserves_bind; [|intros _; apply preserves_logging].
  destruct (eq_str transition LAUNCHING); [|destruct (eq_str transition TERMINATING)].
  - apply (preserves_try_except E); [|exact Habandon].
    unfold launching_body, update_nginix_config.
    apply preserves_bind; [|intros addr].
    { apply preserves_perform; [|assumption]. intros. now apply Hc. }
    apply preserves_bind; [|intros _].
    { apply preserves_perform; [|assumption]. intros. now apply Hc. }
    apply preserves_bind; [|intros _].
    { apply preserves_perform; [|assumption]. intros. now apply Hc. }
    apply Hsend. tauto.
  - apply (preserves_try_except E); [|exact Habandon].
    unfold terminating_body.
    apply preserves_bind; [|intros addr].
    { apply preserves_perform; [|assumption]. intros. now apply Hc. }
    apply preserves_bind; [|intros _].
    { apply preserves_perform; [|assumption]. intros. now apply Hc. }
    apply Hsend. tauto.
  - apply preserves_ret.
Qed.

End Preservation.

(** The command list always holds the command of line 77. *)
Lemma commands_generate_nginx_config bucket server cert domain :
  In ("sudo rpt generate-nginx-config --domain " +:+ domain
        +:+ " --server-address " +:+ server)
     (commands bucket server cert domain).
Proof. unfold commands. do 20 right. left. reflexivity. Qed.

(** C6.  For every configuration the hostname is the concatenation of
    prefix, dot and root domain, so that with prefix [nucleus] and root
    domain [example.com] it is [nucleus.example.com]; and in every
    invocation of the handler every DNS upsert (and delete) is passed the
    configured root domain and prefix, which name the record of that
    hostname, and every provisioning call sends the command
    [sudo rpt generate-nginx-config --domain] with that hostname. *)
Theorem hostname_of_configuration
    (cfg : Config) W (cloud : Cloud W) event context w s r :
  handler cloud cfg event context (w, []) = (s, r) ->
  hostname cfg = NUCLEUS_DOMAIN_PREFIX cfg +:+ "." +:+ NUCLEUS_ROOT_DOMAIN cfg /\
  (NUCLEUS_DOMAIN_PREFIX cfg = "nucleus" ->
   NUCLEUS_ROOT_DOMAIN cfg = "example.com" ->
   hostname cfg = "nucleus.example.com") /\
  Forall (uses_hostname cfg) (calls s.2).
Proof.
  intros Hrun. split; [reflexivity|]. split.
  { intros Hp Hr. unfold hostname. now rewrite Hp, Hr. }
  assert (Hinv : preserves (fun t => Forall (uses_hostname cfg) (calls t))
                   (fun _ => True) (handler cloud cfg event context)).
  { apply preserves_handler; cbv beta; try (intros; exact Logic.I).
    - intros t l m Ht. now rewrite calls_log.
    - intros t c o Ht Hc. rewrite calls_app. apply Forall_app.
      split; [exact Ht|]. repeat constructor. unfold uses_hostname. simpl.
      destruct c; try exact Logic.I.
      + destruct Hc as (_ & -> & ->). repeat split.
      + destruct Hc as (_ & -> & ->). repeat split.
      + destruct Hc as [-> _]. apply commands_generate_nginx_config. }
  destruct (Hinv w []) as [Hcalls _]; [constructor|].
  unfold trace in Hcalls. now rewrite Hrun in Hcalls.
Qed.

(** C7.  [update_nginix_config] makes one outbound call, the remote
    command dispatch on the instance with the shell-script document, and
    the commands it sends are the stages of the spec in the prescribed
    order: update the OS packages, install the build dependencies, install
    the interpreter from source, fetch and unpack the tools archive from
    the artifact bucket, install the tool's dependencies, generate the
    certificate-manager config for the certificate, generate the
    reverse-proxy config for the hostname and the upstream address, move
    both files into place, start and enable the services. *)
Theorem provisioning_commands_in_order
    W (cloud : Cloud W) instanceId bucket upstream certificate host w t :
  commands bucket upstream certificate host
    = Stages.sequence bucket upstream certificate host /\
  exists w' o,
    cloud (ssm_run_commands instanceId
             (Stages.sequence bucket upstream certificate host)
             "AWS-RunShellScript") w = (w', o) /\
    (update_nginix_config cloud instanceId bucket upstream certificate host (w, t)).1
      = (w', t ++ [ Called (ssm_run_commands instanceId
                              (Stages.sequence bucket upstream certificate host)
                              "AWS-RunShellScript") o ]).
Proof.
  split; [reflexivity|].
  unfold update_nginix_config.
  change (commands bucket upstream certificate host)
    with (Stages.sequence bucket upstream certificate host).
  destruct (cloud (ssm_run_commands instanceId
                     (Stages.sequence bucket upstream certificate host)
                     "AWS-RunShellScript") w) as [w' o] eqn:Hcall.
  exists w', o. split; [reflexivity|].
  now rewrite (perform_run _ _ _ _ _ _ Hcall).
Qed.

(** C8.  When one of the six required keys is absent from the
    environment, the import of the module raises the [KeyError] of an
    absent key, so the process fails before it serves any event, whatever
    the events are.  And an invocation of the handler never raises the
    [KeyError] of a configuration key: the keys it can miss are those of
    the event. *)
Theorem missing_configuration_fails_at_import (environ : gmap string string) :
  (exists key, In key required_keys /\ environ !! key = None) ->
  (exists key,
     In key required_keys /\ environ !! key = None /\
     module_init environ = Raise (KeyError key) /\
     forall W (cloud : Cloud W) events w,
       process cloud environ events w = Raise (KeyError key)) /\
  (forall W (cloud : Cloud W) cfg event context s s' key,
     handler cloud cfg event context s = (s', Raise (KeyError key)) ->
     In key event_keys /\ ~ In key required_keys).
Proof.
  intros (key & Hin & Hnone). split.
  - assert (Hinit : exists key', In key' required_keys /\ environ !! key' = None /\
                      module_init environ = Raise (KeyError key')).
    { unfold module_init, environ_get.
      repeat match goal with
      | |- context [environ !! ?k] =>
          lazymatch k with
          | key => fail
          | _ => destruct (environ !! k) eqn:?;
                 [| exists k; repeat split; [simpl; tauto | assumption] ]
          end
      end.
      simpl in Hin. decompose [or] Hin; subst; try congruence; tauto. }
    destruct Hinit as (key' & Hin' & Hnone' & Hinit).
    exists key'. repeat split; try assumption.
    intros. unfold process. now rewrite Hinit.
  - intros W cloud cfg event context [w t] s' key' Hrun.
    assert (Hinv : preserves (fun _ => True) names_event_key
                     (handler cloud cfg event context)).
    { apply preserves_handler; cbv beta; try (intros; exact Logic.I).
      intros e He. exact He. }
    specialize (Hinv w t Logic.I).
    rewrite Hrun in Hinv. destruct Hinv as [_ Hkey]. simpl in Hkey.
    split; [exact Hkey | apply event_keys_not_required, Hkey].
Qed.

(** * Further properties of the module *)

(** ** The import *)



(** ** Every way an invocation can go *)

Lemma detail_raises_after_read event key0 a key e :
  detail event key0 = Ok a ->
  detail event key = Raise e ->
  e = KeyError key.
Proof.
  unfold detail, getitem.
  destruct event; try discriminate.
  destruct (d !! "detail") as [[]|]; try discriminate.
  intros _. destruct (d0 !! key); [discriminate | now intros [= <-]].
Qed.

(** The exception a read raised: the [KeyError] of its key when another
    read of the event succeeded, one of three exceptions otherwise. *)
Ltac name_raised event E :=
  first
    [ match goal with
      | H : detail event _ = Ok _ |- _ =>
          let Ee := fresh in
          pose proof (detail_raises_after_read _ _ _ _ _ H E) as Ee; subst
      end
    | let Ee := fresh in
      pose proof (detail_raises _ _ _ E) as Ee;
      destruct Ee as [Ee | [Ee | Ee]]; subst ].

Ltac case_detail event :=
  match goal with
  | |- context [detail event ?k] =>
      let E := fresh "Eread" in
      destruct (detail event k) as [?|?] eqn:E; [| name_raised event E]; simpl
  end.

Ltac case_eq_str :=
  match goal with
  | |- context [eq_str ?v ?s] =>
      let E := fresh "Etransition" in
      destruct (eq_str v s) eqn:E; simpl
  end.

(** Case analysis on every read of the event, on both comparisons of the
    transition and on the outcome of every call, for any event and any
    cloud. *)
Ltac explore_any cloud event :=
  unfold handler, launching_body, terminating_body, abandon,
    update_nginix_config, send_lifecycle_action, try_except,
    try_except_ClientError, bind, lift, log, ret, raise, perform;
  repeat first
    [ case_detail event | case_eq_str | case_cloud cloud | progress simpl ].

Ltac explore_handler cloud event Hrun :=
  revert Hrun;
  explore_any cloud event;
  intros Hrun; injection Hrun as <- <-; simpl in *.

Ltac use_transition :=
  repeat match goal with
  | H : eq_str _ _ = true |- _ => apply eq_str_true in H; subst
  end.

Ltac with_prefix tac :=
  first
    [ exists []; tac | eexists [_]; tac | eexists [_; _]; tac
    | eexists [_; _; _]; tac | eexists [_; _; _; _]; tac ].

(** ** [send_lifecycle_action] on any event *)

Section Report.

Context {W : Type} (cloud : Cloud W).

(** X3.  Whatever the event, [send_lifecycle_action] either reads the
    four fields and makes exactly one call, the report with these fields
    and the given result, returning if it returns and raising what lines
    41-44 make of its exception otherwise; or it fails to read one of the
    four fields, and then raises the error of that read without making
    any call or logging anything. *)
Theorem send_lifecycle_action_calls event result w t s r :
  send_lifecycle_action cloud event result (w, t) = (s, r) ->
  (exists hook group token instance o,
     identifies event hook group token /\
     detail event "EC2InstanceId" = Ok instance /\
     cloud (report hook group token result instance) w = (s.1, o) /\
     calls s.2 = calls t ++ [ (report hook group token result instance, o) ] /\
     r = after_abandon o) \/
  (s = (w, t) /\
   exists key e,
     In key [ "LifecycleHookName"; "AutoScalingGroupName";
              "LifecycleActionToken"; "EC2InstanceId" ] /\
     detail event key = Raise e /\ r = Raise e).
Proof.
  unfold send_lifecycle_action, try_except_ClientError, bind, lift, log, raise,
    perform, report.
  repeat first [ case_detail event | case_cloud cloud | progress simpl ].
  all: intros [= <- <-]; simpl.
  all: try (left; do 5 eexists; split; [repeat split; eassumption|];
            split; [reflexivity|]; split; [eassumption|];
            split; [|reflexivity];
            rewrite ?calls_app; simpl; rewrite ?app_nil_r; reflexivity).
  all: right; split; [reflexivity|].
  all: match goal with
       | H : detail _ ?k = Raise ?x |- _ =>
           exists k, x; split; [simpl; tauto | split; [exact H | reflexivity]]
       end.
Qed.

End Report.

(** ** The order of the calls *)

Section Order.

Context {W : Type} (cloud : Cloud W) (cfg : Config).
Variables (event context : pyval).

(** X4.  An invocation makes outbound calls exactly when both reads of
    lines 96-97 succeed and the transition is one of the two recognized
    strings; its first call is then the lookup of the public name of the
    event's instance. *)
Theorem calls_start_with_lookup w s r :
  handler cloud cfg event context (w, []) = (s, r) ->
  (calls s.2 = [] /\
   ~ exists instance transition,
       dispatches event instance transition /\ recognized transition) \/
  (exists instance transition o rest,
     dispatches event instance transition /\ recognized transition /\
     calls s.2 = (ec2_get_instance_public_dns_name instance, o) :: rest).
Proof.
  intros Hrun. explore_handler cloud event Hrun; use_transition.
  all: try (right; do 4 eexists; split; [split; eassumption|];
            split; [(left; reflexivity) || (right; reflexivity) | reflexivity]).
  all: left; split; [reflexivity|]; intros (i & tr & [Hi Ht] & Hrec).
  all: try congruence.
  all: match goal with
       | H : detail _ "LifecycleTransition" = Ok ?x |- _ =>
           assert (tr = x) by congruence;
           subst; destruct Hrec as [-> | ->]; discriminate
       end.
Qed.

(** X5.  The remote provisioning call is made only on a LAUNCHING event,
    only for the event's instance, and only as the third call, after the
    lookup returned an address and the upsert of the configured record to
    that address returned; it sends the command list built from the
    configuration, as a shell script. *)
Theorem provisioning_follows_upsert w s r i cmds doc o :
  handler cloud cfg event context (w, []) = (s, r) ->
  In (ssm_run_commands i cmds doc, o) (calls s.2) ->
  dispatches event i (PStr LAUNCHING) /\
  cmds = commands (ARTIFACTS_BUCKET cfg) (NUCLEUS_SERVER_ADDRESS cfg)
           (REVERSE_PROXY_SSL_CERT_ARN cfg) (hostname cfg) /\
  doc = "AWS-RunShellScript" /\
  exists addr r1 rest,
    calls s.2 =
      (ec2_get_instance_public_dns_name i, inr addr)
      :: (r53_update_hosted_zone_cname_record (R53_HOSTED_ZONE_ID cfg)
            (NUCLEUS_ROOT_DOMAIN cfg) (NUCLEUS_DOMAIN_PREFIX cfg) addr, inr r1)
      :: (ssm_run_commands i cmds doc, o) :: rest.
Proof.
  intros Hrun Hin. explore_handler cloud event Hrun; use_transition.
  all: decompose [or] Hin; try discriminate; try contradiction.
  all: match goal with H : (_, _) = (_, _) |- _ => injection H as <- <- <- <- end.
  all: split; [split; assumption|]; split; [reflexivity|]; split; [reflexivity|].
  all: do 3 eexists; reflexivity.
Qed.

(** X6.  A DNS upsert is made only on a LAUNCHING event and a DNS delete
    only on a TERMINATING event; either one is the second call, names the
    configured zone, root domain and prefix, and carries the address the
    lookup just returned. *)
Theorem dns_changes_follow_lookup w s r zone root prefix addr o :
  handler cloud cfg event context (w, []) = (s, r) ->
  (In (r53_update_hosted_zone_cname_record zone root prefix addr, o) (calls s.2) ->
   detail event "LifecycleTransition" = Ok (PStr LAUNCHING) /\
   (zone, root, prefix)
     = (R53_HOSTED_ZONE_ID cfg, NUCLEUS_ROOT_DOMAIN cfg, NUCLEUS_DOMAIN_PREFIX cfg) /\
   exists instance rest,
     calls s.2 =
       (ec2_get_instance_public_dns_name instance, inr addr)
       :: (r53_update_hosted_zone_cname_record zone root prefix addr, o) :: rest) /\
  (In (r53_delete_hosted_zone_cname_record zone root prefix addr, o) (calls s.2) ->
   detail event "LifecycleTransition" = Ok (PStr TERMINATING) /\
   (zone, root, prefix)
     = (R53_HOSTED_ZONE_ID cfg, NUCLEUS_ROOT_DOMAIN cfg, NUCLEUS_DOMAIN_PREFIX cfg) /\
   exists instance rest,
     calls s.2 =
       (ec2_get_instance_public_dns_name instance, inr addr)
       :: (r53_delete_hosted_zone_cname_record zone root prefix addr, o) :: rest).
Proof.
  intros Hrun. explore_handler cloud event Hrun; use_transition.
  all: split; intros Hin; decompose [or] Hin; try discriminate; try contradiction.
  all: match goal with H : (_, _) = (_, _) |- _ => injection H as <- <- <- <- <- end.
  all: split; [reflexivity|]; split; [reflexivity|]; do 2 eexists; reflexivity.
Qed.

(** X7.  Whatever the event and whatever fails, every lookup names the
    instance identifier of the event, and every report carries the hook
    name, group name, action token and instance identifier of the event
    as they are, with result CONTINUE or ABANDON. *)
Theorem calls_carry_event_fields w s r :
  handler cloud cfg event context (w, []) = (s, r) ->
  (forall instance o,
     In (ec2_get_instance_public_dns_name instance, o) (calls s.2) ->
     detail event "EC2InstanceId" = Ok instance) /\
  (forall hook group token result instance o,
     In (autoscaling_complete_lifecycle_action hook group token result instance, o)
        (calls s.2) ->
     identifies event hook group token /\
     detail event "EC2InstanceId" = Ok instance /\
     (result = "CONTINUE" \/ result = "ABANDON")).
Proof.
  intros Hrun. explore_handler cloud event Hrun.
  all: split; [intros instance o Hin | intros hook group token result instance o Hin];
    decompose [or] Hin; try discriminate; try contradiction.
  all: match goal with H : (_, _) = (_, _) |- _ => injection H; intros; subst end.
  all: try reflexivity.
  all: split; [repeat split; assumption|]; split; [reflexivity|]; tauto.
Qed.

End Order.

(** ** How an invocation ends *)

Section Outcome.

Context {W : Type} (cloud : Cloud W) (cfg : Config).
Variables (event context : pyval).

(** X8.  When the CONTINUE report returns, it is the last call of the
    invocation, every call before it returned, and the handler returns:
    a lifecycle action that was continued is never abandoned as well. *)
Theorem continue_is_final w s r hook group token instance v :
  handler cloud cfg event context (w, []) = (s, r) ->
  In (report hook group token "CONTINUE" instance, inr v) (calls s.2) ->
  r = Ok tt /\
  exists pre,
    calls s.2 = pre ++ [ (report hook group token "CONTINUE" instance, inr v) ] /\
    Forall succeeded pre.
Proof.
  intros Hrun Hin. unfold report in *.
  explore_handler cloud event Hrun.
  all: decompose [or] Hin; try discriminate; try contradiction.
  all: match goal with H : (_, _) = (_, _) |- _ => injection H as <- <- <- <- <- end.
  all: split; [reflexivity|].
  all: with_prefix ltac:(split; [reflexivity | repeat constructor]).
Qed.

(** X9.  An ABANDON report is made only right after a call that raised,
    the first one to raise; it is the last call of the invocation, and
    the handler returns if it returns and raises what lines 41-44 make of
    its exception otherwise. *)
Theorem abandon_follows_a_failure w s r hook group token instance o :
  handler cloud cfg event context (w, []) = (s, r) ->
  In (report hook group token "ABANDON" instance, o) (calls s.2) ->
  r = after_abandon o /\
  exists pre c e,
    calls s.2 = pre ++ [ (c, inl e); (report hook group token "ABANDON" instance, o) ] /\
    Forall succeeded pre.
Proof.
  intros Hrun Hin. unfold report in *.
  explore_handler cloud event Hrun.
  all: decompose [or] Hin; try discriminate; try contradiction.
  all: match goal with H : (_, _) = (_, _) |- _ => injection H as <- <- <- <- <- end.
  all: split; [reflexivity|].
  all: with_prefix ltac:(do 2 eexists; split; [reflexivity | repeat constructor]).
Qed.

(** X10.  When the handler returns without raising, both reads of lines
    96-97 succeeded, and either the transition is not recognized and
    nothing happened but the two log lines, or the transition is
    recognized and the last call is a report for the event's instance
    that returned. *)
Theorem normal_return_completes w s :
  handler cloud cfg event context (w, []) = (s, Ok tt) ->
  exists instance transition,
    dispatches event instance transition /\
    ((~ recognized transition /\
      s = (w, [ Logged INFO (LogEvent event);
                Logged INFO (LogText "Execution Complete") ])) \/
     (recognized transition /\
      exists pre hook group token result v,
        calls s.2 = pre ++ [ (report hook group token result instance, inr v) ])).
Proof.
  intros Hrun. unfold report.
  revert Hrun. explore_any cloud event; intros Hrun; try discriminate Hrun;
    injection Hrun as <-; simpl; use_transition.
  all: do 2 eexists; split; [split; eassumption|].
  all: try (right; split; [(left; reflexivity) || (right; reflexivity)|];
            with_prefix ltac:(do 5 eexists; reflexivity)).
  all: left; split; [|reflexivity].
  all: intros [-> | ->]; discriminate.
Qed.

(** X11.  An invocation makes at most five outbound calls and never
    makes the same call twice: nothing is retried. *)
Theorem at_most_five_calls w s r :
  handler cloud cfg event context (w, []) = (s, r) ->
  length (calls s.2) <= 5 /\ NoDup (map fst (calls s.2)).
Proof.
  intros Hrun. explore_handler cloud event Hrun.
  all: split; [lia|].
  all: repeat
         (apply NoDup_cons_2;
          [ intros Hin;
            repeat (apply elem_of_cons in Hin as [Hin | Hin]; [discriminate Hin|]);
            apply elem_of_nil in Hin; exact Hin
          | ]).
  all: apply NoDup_nil_2.
Qed.

(** X12.  An exception that leaves the handler is the error of one of
    the reads of lines 96-97, raised before any call; or the [KeyError]
    of a report field the event lacks, in which case no report was made;
    or what lines 41-44 make of the exception of the ABANDON report, which
    then is the last call.  It is never a [ClientError]. *)
Theorem escaping_exceptions w s e :
  handler cloud cfg event context (w, []) = (s, Raise e) ->
  ((s = (w, [ Logged INFO (LogEvent event) ]) /\
    (e = TypeError \/ e = KeyError "detail" \/ e = KeyError "EC2InstanceId" \/
     e = KeyError "LifecycleTransition")) \/
   (exists key,
      In key [ "LifecycleHookName"; "AutoScalingGroupName"; "LifecycleActionToken" ] /\
      e = KeyError key /\
      detail event key = Raise (KeyError key) /\
      report_calls s.2 = []) \/
   (exists pre hook group token instance ce,
      calls s.2 = pre ++ [ (report hook group token "ABANDON" instance, inl ce) ] /\
      e = raised_by_report ce)) /\
  forall str, e <> Collaborator (ClientError str).
Proof.
  intros Hrun. unfold report.
  revert Hrun. explore_any cloud event; intros Hrun; try discriminate Hrun;
    injection Hrun as <- <-; simpl.
  all: split; [|discriminate].
  all: try (left; split; [reflexivity | tauto]).
  all: try (right; left; eexists;
            split; [|split; [reflexivity|split; [eassumption|reflexivity]]];
            simpl; tauto).
  all: right; right;
    with_prefix ltac:(do 5 eexists; split; reflexivity).
Qed.

(** X13.  The first thing an invocation does is log the event, and
    "Execution Complete" is its last log line exactly when the handler
    returns without raising. *)
Theorem handler_logging w s r :
  handler cloud cfg event context (w, []) = (s, r) ->
  (exists rest, s.2 = Logged INFO (LogEvent event) :: rest) /\
  (r = Ok tt <-> last s.2 = Some (Logged INFO (LogText "Execution Complete"))).
Proof.
  intros Hrun. explore_handler cloud event Hrun.
  all: split; [eexists; reflexivity|].
  all: split; intros H; first [reflexivity | discriminate H].
Qed.

End Outcome.

(** ** Concrete invocations *)

Lemma lifecycle_event_dispatches transition :
  dispatches (lifecycle_event transition) example_instance transition.
Proof. split; reflexivity. Qed.

Lemma lifecycle_event_identifies transition :
  identifies (lifecycle_event transition) example_hook example_group example_token.
Proof. repeat split; reflexivity. Qed.

(** The whole trace of a launch on which the metadata lookup fails. *)
Example failed_lookup_trace :
  handler (scripted lookup_fails) example_config
    (lifecycle_event (PStr LAUNCHING)) PNone (0, [])
  = ((2, [ Logged INFO (LogEvent (lifecycle_event (PStr LAUNCHING)));
           Called (ec2_get_instance_public_dns_name example_instance)
             (inl (OtherError "no such instance"));
           Logged WARNING (LogTraceback (Collaborator (OtherError "no such instance")));
           Logged ERROR (LogFormat "Error running command: {}"
                           (Collaborator (OtherError "no such instance")));
           Called (report example_hook example_group example_token "ABANDON"
                     example_instance) (inr PNone);
           Logged INFO (LogValue PNone);
           Logged INFO (LogText "Execution Complete") ]),
     Ok tt).
Proof. vm_compute. reflexivity. Qed.

(** When the ABANDON report is refused as well, the wrapped exception
    leaves the handler and "Execution Complete" is never logged. *)
Example failed_abandon_leaves_handler :
  handler (scripted lookup_and_abandon_fail) example_config
    (lifecycle_event (PStr TERMINATING)) PNone (0, [])
  = ((2, [ Logged INFO (LogEvent (lifecycle_event (PStr TERMINATING)));
           Called (ec2_get_instance_public_dns_name example_instance)
             (inl (OtherError "no such instance"));
           Logged WARNING (LogTraceback (Collaborator (OtherError "no such instance")));
           Logged ERROR (LogFormat "Error running command: {}"
                           (Collaborator (OtherError "no such instance")));
           Called (report example_hook example_group example_token "ABANDON"
                     example_instance) (inl (ClientError "ValidationError"));
           Logged ERROR
             (LogText "Error completing lifecycle action: ValidationError") ]),
     Raise (Exception "Error completing lifecycle action: ValidationError")).
Proof. vm_compute. reflexivity. Qed.

(** A termination event without its hook name: the lookup and the delete
    are made, no report is. *)
Example missing_hook_reports_nothing :
  exists t,
    handler (scripted nothing_fails) example_config
      (event_without_hook (PStr TERMINATING)) PNone (0, [])
      = ((2, t), Raise (KeyError "LifecycleHookName")) /\
    length (calls t) = 2 /\
    report_calls t = [].
Proof. eexists. split; [vm_compute; reflexivity|]. split; reflexivity. Qed.

(** With the six keys present the import yields the configuration. *)
Example import_succeeds :
  module_init (<["REVERSE_PROXY_SSL_CERT_ARN" :=
                   "arn:aws:acm:us-east-1:111122223333:certificate/abc"]> example_environ)
  = Ok example_config.
Proof. vm_compute. reflexivity. Qed.

(** A launch on which nothing fails. *)
Lemma launching_calls_in_order_witness :
  exists t,
    handler (scripted nothing_fails) example_config
      (lifecycle_event (PStr LAUNCHING)) PNone (0, []) = ((4, t), Ok tt) /\
    calls t =
      [ (ec2_get_instance_public_dns_name example_instance, inr example_address);
        (r53_update_hosted_zone_cname_record "Z0123456789ABCDEFGHIJ"
           "example.com" "nucleus" example_address, inr PNone);
        (ssm_run_commands example_instance
           (commands "nucleus-artifacts" "10.0.0.12"
              "arn:aws:acm:us-east-1:111122223333:certificate/abc"
              "nucleus.example.com")
           "AWS-RunShellScript", inr PNone);
        (report example_hook example_group example_token "CONTINUE" example_instance,
         inr PNone) ] /\
    report_calls t =
      [ (report example_hook example_group example_token "CONTINUE" example_instance,
         inr PNone) ].
Proof.
  apply (launching_calls_in_order (scripted nothing_fails) example_config
           (lifecycle_event (PStr LAUNCHING)) PNone example_instance
           example_hook example_group example_token
           (lifecycle_event_identifies _) 0 1 2 3 4 example_address PNone PNone PNone
           (lifecycle_event_dispatches _)); reflexivity.
Defined.

(** A termination on which nothing fails. *)
Lemma terminating_calls_in_order_witness :
  exists t,
    handler (scripted nothing_fails) example_config
      (lifecycle_event (PStr TERMINATING)) PNone (0, []) = ((3, t), Ok tt) /\
    calls t =
      [ (ec2_get_instance_public_dns_name example_instance, inr example_address);
        (r53_delete_hosted_zone_cname_record "Z0123456789ABCDEFGHIJ"
           "example.com" "nucleus" example_address, inr PNone);
        (report example_hook example_group example_token "CONTINUE" example_instance,
         inr PNone) ] /\
    report_calls t =
      [ (report example_hook example_group example_token "CONTINUE" example_instance,
         inr PNone) ] /\
    forall i cmds doc o, ~ In (ssm_run_commands i cmds doc, o) (calls t).
Proof.
  apply (terminating_calls_in_order (scripted nothing_fails) example_config
           (lifecycle_event (PStr TERMINATING)) PNone example_instance
           example_hook example_group example_token
           (lifecycle_event_identifies _) 0 1 2 3 example_address PNone PNone
           (lifecycle_event_dispatches _)); reflexivity.
Defined.

(** C3 as stated fails.  A launch event without its hook name, on which
    no service fails: the CONTINUE report raises [KeyError] inside the
    branch, the handler of the branch raises it again when it tries to
    report ABANDON, no report is made and the exception leaves the
    handler. *)
Lemma malformed_event_is_not_abandoned :
  recognized (PStr LAUNCHING) /\
  dispatches (event_without_hook (PStr LAUNCHING)) example_instance (PStr LAUNCHING) /\
  exists t,
    handler (scripted nothing_fails) example_config
      (event_without_hook (PStr LAUNCHING)) PNone (0, [])
      = ((3, t), Raise (KeyError "LifecycleHookName")) /\
    Forall succeeded (calls t) /\
    report_calls t = [].
Proof.
  split; [left; reflexivity|]. split; [split; reflexivity|].
  eexists. split; [vm_compute; reflexivity|].
  split; [|reflexivity]. repeat constructor.
Qed.

(** The metadata lookup fails on a launch ([failed_lookup_trace]): the
    ABANDON report follows. *)
Lemma first_failure_then_abandon_witness :
  exists o,
    [ (report example_hook example_group example_token "ABANDON" example_instance,
       inr PNone) ]
      = [ (report example_hook example_group example_token "ABANDON" example_instance,
           o) ] /\
    (Ok tt = Ok tt <-> returned o).
Proof.
  apply (first_failure_then_abandon (scripted lookup_fails) example_config
           (lifecycle_event (PStr LAUNCHING)) PNone example_instance (PStr LAUNCHING)
           example_hook example_group example_token
           (lifecycle_event_dispatches _) (or_introl eq_refl)
           (lifecycle_event_identifies _)
           0 _
           (Ok tt) []
           (ec2_get_instance_public_dns_name example_instance)
           (OtherError "no such instance")
           [ (report example_hook example_group example_token "ABANDON" example_instance,
              inr PNone) ]
           failed_lookup_trace).
  - reflexivity.
  - constructor.
Defined.

(** C4 as stated fails.  An event whose transition is none of the two
    recognized strings and that has no instance identifier: the handler
    raises at line 96. *)
Lemma unrecognized_transition_can_raise :
  detail (event_without_instance (PStr LAUNCH_ERROR)) "LifecycleTransition"
    = Ok (PStr LAUNCH_ERROR) /\
  ~ recognized (PStr LAUNCH_ERROR) /\
  handler (scripted nothing_fails) example_config
    (event_without_instance (PStr LAUNCH_ERROR)) PNone (0, [])
    = ((0, [ Logged INFO (LogEvent (event_without_instance (PStr LAUNCH_ERROR))) ]),
       Raise (KeyError "EC2InstanceId")).
Proof.
  split; [reflexivity|]. split; [|vm_compute; reflexivity].
  intros [H | H]; discriminate H.
Qed.

(** A well-formed event with an unrecognized transition. *)
Lemma unrecognized_transition_is_ignored_witness :
  exists t,
    handler (scripted nothing_fails) example_config
      (lifecycle_event (PStr LAUNCH_ERROR)) PNone (0, []) = ((0, t), Ok tt) /\
    calls t = [].
Proof.
  apply (unrecognized_transition_is_ignored (scripted nothing_fails) example_config
           (lifecycle_event (PStr LAUNCH_ERROR)) PNone example_instance
           (PStr LAUNCH_ERROR) 0 (lifecycle_event_dispatches _)).
  intros [H | H]; discriminate H.
Defined.



(** The launch on which nothing fails, with prefix [nucleus] and root
    domain [example.com]: its upsert and its provisioning call are made
    for [nucleus.example.com]. *)
Lemma hostname_of_configuration_witness :
  hostname example_config = "nucleus.example.com" /\
  Forall (uses_hostname example_config) (calls launch_run.1.2) /\
  exists lookup zone addr o2 instance cmds o3 report,
    calls launch_run.1.2 =
      [ lookup;
        (r53_update_hosted_zone_cname_record zone "example.com" "nucleus" addr, o2);
        (ssm_run_commands instance cmds "AWS-RunShellScript", o3);
        report ] /\
    In "sudo rpt generate-nginx-config --domain nucleus.example.com --server-address 10.0.0.12"
       cmds.
Proof.
  destruct (hostname_of_configuration example_config nat (scripted nothing_fails)
              (lifecycle_event (PStr LAUNCHING)) PNone 0
              launch_run.1 launch_run.2 (surjective_pairing launch_run))
    as (_ & Hname & Hcalls).
  split; [apply Hname; reflexivity|]. split; [exact Hcalls|].
  do 8 eexists. split; [reflexivity|].
  do 20 right. left. reflexivity.
Defined.

(** An environment without the certificate identifier. *)
Lemma missing_configuration_fails_at_import_witness :
  (exists key,
     In key required_keys /\ example_environ !! key = None /\
     module_init example_environ = Raise (KeyError key) /\
     forall W (cloud : Cloud W) events w,
       process cloud example_environ events w = Raise (KeyError key)) /\
  (forall W (cloud : Cloud W) cfg event context s s' key,
     handler cloud cfg event context s = (s', Raise (KeyError key)) ->
     In key event_keys /\ ~ In key required_keys).
Proof.
  apply (missing_configuration_fails_at_import example_environ).
  exists "REVERSE_PROXY_SSL_CERT_ARN". split; [simpl; tauto | vm_compute; reflexivity].
Defined.

(** C9 as stated fails.  A well-formed launch on which the control plane
    refuses the CONTINUE report and accepts the ABANDON report: the
    handler returns without raising. *)
Lemma refused_continue_is_not_fatal :
  exists t,
    handler (scripted (report_fails "CONTINUE")) example_config
      (lifecycle_event (PStr LAUNCHING)) PNone (0, []) = ((5, t), Ok tt) /\
    In (report example_hook example_group example_token "CONTINUE" example_instance,
        inl (ClientError "ValidationError")) (calls t).
Proof.
  eexists. split; [vm_compute; reflexivity|].
  simpl. tauto.
Qed.

Lemma report_failures_witness :
  (forall e,
     In (report example_hook example_group example_token "ABANDON" example_instance,
         inl e)
       (calls (handler (scripted lookup_and_abandon_fail) example_config
                 (lifecycle_event (PStr TERMINATING)) PNone (0, [])).1.2) ->
     (handler (scripted lookup_and_abandon_fail) example_config
        (lifecycle_event (PStr TERMINATING)) PNone (0, [])).2
       = Raise (raised_by_report e)) /\
  (forall e,
     In (report example_hook example_group example_token "CONTINUE" example_instance,
         inl e)
       (calls (handler (scripted lookup_and_abandon_fail) example_config
                 (lifecycle_event (PStr TERMINATING)) PNone (0, [])).1.2) ->
     exists pre o,
       calls (handler (scripted lookup_and_abandon_fail) example_config
                (lifecycle_event (PStr TERMINATING)) PNone (0, [])).1.2
         = pre ++
           [ (report example_hook example_group example_token "CONTINUE" example_instance,
              inl e);
             (report example_hook example_group example_token "ABANDON" example_instance,
              o) ] /\
       ((handler (scripted lookup_and_abandon_fail) example_config
           (lifecycle_event (PStr TERMINATING)) PNone (0, [])).2 = Ok tt
        <-> returned o)).
Proof.
  apply (report_failures (scripted lookup_and_abandon_fail) example_config
           (lifecycle_event (PStr TERMINATING)) PNone example_instance
           (PStr TERMINATING) example_hook example_group example_token
           (lifecycle_event_dispatches _) (or_intror eq_refl)
           (lifecycle_event_identifies _) 0).
  apply surjective_pairing.
Defined.

(** An event without ["detail"]. *)
Lemma missing_dispatch_field_raises_witness :
  exists key t,
    In key ["detail"; "EC2InstanceId"; "LifecycleTransition"] /\
    handler (scripted nothing_fails) example_config event_without_detail PNone (0, [])
      = ((0, t), Raise (KeyError key)) /\
    calls t = [].
Proof.
  apply (missing_dispatch_field_raises (scripted nothing_fails) example_config
           event_without_detail PNone 0).
  left. reflexivity.
Defined.

(** ** Concrete invocations for the further properties *)


Lemma send_lifecycle_action_calls_witness :
  (exists hook group token instance o,
     identifies (lifecycle_event (PStr LAUNCHING)) hook group token /\
     detail (lifecycle_event (PStr LAUNCHING)) "EC2InstanceId" = Ok instance /\
     scripted nothing_fails (report hook group token "CONTINUE" instance) 7
       = ((send_lifecycle_action (scripted nothing_fails)
             (lifecycle_event (PStr LAUNCHING)) "CONTINUE" (7, [])).1.1, o) /\
     calls (send_lifecycle_action (scripted nothing_fails)
              (lifecycle_event (PStr LAUNCHING)) "CONTINUE" (7, [])).1.2
       = calls [] ++ [ (report hook group token "CONTINUE" instance, o) ] /\
     (send_lifecycle_action (scripted nothing_fails)
        (lifecycle_event (PStr LAUNCHING)) "CONTINUE" (7, [])).2 = after_abandon o) \/
  ((send_lifecycle_action (scripted nothing_fails)
      (lifecycle_event (PStr LAUNCHING)) "CONTINUE" (7, [])).1 = (7, []) /\
   exists key e,
     In key [ "LifecycleHookName"; "AutoScalingGroupName";
              "LifecycleActionToken"; "EC2InstanceId" ] /\
     detail (lifecycle_event (PStr LAUNCHING)) key = Raise e /\
     (send_lifecycle_action (scripted nothing_fails)
        (lifecycle_event (PStr LAUNCHING)) "CONTINUE" (7, [])).2 = Raise e).
Proof.
  apply (send_lifecycle_action_calls (scripted nothing_fails)
           (lifecycle_event (PStr LAUNCHING)) "CONTINUE" 7 []).
  apply surjective_pairing.
Defined.

Lemma calls_start_with_lookup_witness :
  (calls launch_run.1.2 = [] /\
   ~ exists instance transition,
       dispatches (lifecycle_event (PStr LAUNCHING)) instance transition /\
       recognized transition) \/
  (exists instance transition o rest,
     dispatches (lifecycle_event (PStr LAUNCHING)) instance transition /\
     recognized transition /\
     calls launch_run.1.2 = (ec2_get_instance_public_dns_name instance, o) :: rest).
Proof.
  apply (calls_start_with_lookup (scripted nothing_fails) example_config
           (lifecycle_event (PStr LAUNCHING)) PNone 0 launch_run.1 launch_run.2).
  exact (surjective_pairing launch_run).
Defined.

Lemma provisioning_follows_upsert_witness :
  dispatches (lifecycle_event (PStr LAUNCHING)) example_instance (PStr LAUNCHING) /\
  commands "nucleus-artifacts" "10.0.0.12"
    "arn:aws:acm:us-east-1:111122223333:certificate/abc" "nucleus.example.com"
    = commands (ARTIFACTS_BUCKET example_config) (NUCLEUS_SERVER_ADDRESS example_config)
        (REVERSE_PROXY_SSL_CERT_ARN example_config) (hostname example_config) /\
  "AWS-RunShellScript" = "AWS-RunShellScript" /\
  exists addr r1 rest,
    calls launch_run.1.2 =
      (ec2_get_instance_public_dns_name example_instance, inr addr)
      :: (r53_update_hosted_zone_cname_record (R53_HOSTED_ZONE_ID example_config)
            (NUCLEUS_ROOT_DOMAIN example_config) (NUCLEUS_DOMAIN_PREFIX example_config)
            addr, inr r1)
      :: (ssm_run_commands example_instance
            (commands "nucleus-artifacts" "10.0.0.12"
               "arn:aws:acm:us-east-1:111122223333:certificate/abc"
               "nucleus.example.com")
            "AWS-RunShellScript", inr PNone) :: rest.
Proof.
  apply (provisioning_follows_upsert (scripted nothing_fails) example_config
           (lifecycle_event (PStr LAUNCHING)) PNone 0 launch_run.1 launch_run.2).
  - exact (surjective_pairing launch_run).
  - do 2 right. left. reflexivity.
Defined.

Lemma dns_changes_follow_lookup_witness :
  (In (r53_update_hosted_zone_cname_record "Z0123456789ABCDEFGHIJ" "example.com"
         "nucleus" example_address, inr PNone) (calls termination_run.1.2) ->
   detail (lifecycle_event (PStr TERMINATING)) "LifecycleTransition"
     = Ok (PStr LAUNCHING) /\
   ("Z0123456789ABCDEFGHIJ", "example.com", "nucleus")
     = (R53_HOSTED_ZONE_ID example_config, NUCLEUS_ROOT_DOMAIN example_config,
        NUCLEUS_DOMAIN_PREFIX example_config) /\
   exists instance rest,
     calls termination_run.1.2 =
       (ec2_get_instance_public_dns_name instance, inr example_address)
       :: (r53_update_hosted_zone_cname_record "Z0123456789ABCDEFGHIJ" "example.com"
             "nucleus" example_address, inr PNone) :: rest) /\
  (In (r53_delete_hosted_zone_cname_record "Z0123456789ABCDEFGHIJ" "example.com"
         "nucleus" example_address, inr PNone) (calls termination_run.1.2) ->
   detail (lifecycle_event (PStr TERMINATING)) "LifecycleTransition"
     = Ok (PStr TERMINATING) /\
   ("Z0123456789ABCDEFGHIJ", "example.com", "nucleus")
     = (R53_HOSTED_ZONE_ID example_config, NUCLEUS_ROOT_DOMAIN example_config,
        NUCLEUS_DOMAIN_PREFIX example_config) /\
   exists instance rest,
     calls termination_run.1.2 =
       (ec2_get_instance_public_dns_name instance, inr example_address)
       :: (r53_delete_hosted_zone_cname_record "Z0123456789ABCDEFGHIJ" "example.com"
             "nucleus" example_address, inr PNone) :: rest).
Proof.
  apply (dns_changes_follow_lookup (scripted nothing_fails) example_config
           (lifecycle_event (PStr TERMINATING)) PNone 0
           termination_run.1 termination_run.2).
  exact (surjective_pairing termination_run).
Defined.

Lemma calls_carry_event_fields_witness :
  (forall instance o,
     In (ec2_get_instance_public_dns_name instance, o) (calls refused_launch_run.1.2) ->
     detail (lifecycle_event (PStr LAUNCHING)) "EC2InstanceId" = Ok instance) /\
  (forall hook group token result instance o,
     In (autoscaling_complete_lifecycle_action hook group token result instance, o)
        (calls refused_launch_run.1.2) ->
     identifies (lifecycle_event (PStr LAUNCHING)) hook group token /\
     detail (lifecycle_event (PStr LAUNCHING)) "EC2InstanceId" = Ok instance /\
     (result = "CONTINUE" \/ result = "ABANDON")).
Proof.
  apply (calls_carry_event_fields (scripted (report_fails "CONTINUE")) example_config
           (lifecycle_event (PStr LAUNCHING)) PNone 0
           refused_launch_run.1 refused_launch_run.2).
  exact (surjective_pairing refused_launch_run).
Defined.

Lemma continue_is_final_witness :
  launch_run.2 = Ok tt /\
  exists pre,
    calls launch_run.1.2
      = pre ++ [ (report example_hook example_group example_token "CONTINUE"
                    example_instance, inr PNone) ] /\
    Forall succeeded pre.
Proof.
  apply (continue_is_final (scripted nothing_fails) example_config
           (lifecycle_event (PStr LAUNCHING)) PNone 0 launch_run.1 launch_run.2).
  - exact (surjective_pairing launch_run).
  - do 3 right. left. reflexivity.
Defined.

Lemma abandon_follows_a_failure_witness :
  failed_lookup_run.2 = after_abandon (inr PNone) /\
  exists pre c e,
    calls failed_lookup_run.1.2
      = pre ++ [ (c, inl e);
                 (report example_hook example_group example_token "ABANDON"
                    example_instance, inr PNone) ] /\
    Forall succeeded pre.
Proof.
  apply (abandon_follows_a_failure (scripted lookup_fails) example_config
           (lifecycle_event (PStr LAUNCHING)) PNone 0
           failed_lookup_run.1 failed_lookup_run.2).
  - exact (surjective_pairing failed_lookup_run).
  - right. left. reflexivity.
Defined.

Lemma normal_return_completes_witness :
  exists instance transition,
    dispatches (lifecycle_event (PStr TERMINATING)) instance transition /\
    ((~ recognized transition /\
      termination_run.1
        = (0, [ Logged INFO (LogEvent (lifecycle_event (PStr TERMINATING)));
                Logged INFO (LogText "Execution Complete") ])) \/
     (recognized transition /\
      exists pre hook group token result v,
        calls termination_run.1.2
          = pre ++ [ (report hook group token result instance, inr v) ])).
Proof.
  apply (normal_return_completes (scripted nothing_fails) example_config
           (lifecycle_event (PStr TERMINATING)) PNone 0 termination_run.1).
  vm_compute. reflexivity.
Defined.

(** The bound is reached: a launch whose CONTINUE report is refused makes
    five calls. *)
Lemma at_most_five_calls_witness :
  length (calls refused_launch_run.1.2) = 5 /\
  length (calls refused_launch_run.1.2) <= 5 /\
  NoDup (map fst (calls refused_launch_run.1.2)).
Proof.
  split; [reflexivity|].
  apply (at_most_five_calls (scripted (report_fails "CONTINUE")) example_config
           (lifecycle_event (PStr LAUNCHING)) PNone 0
           refused_launch_run.1 refused_launch_run.2).
  exact (surjective_pairing refused_launch_run).
Defined.

Lemma escaping_exceptions_witness :
  ((doomed_run.1
      = (0, [ Logged INFO (LogEvent (lifecycle_event (PStr TERMINATING))) ]) /\
    (Exception "Error completing lifecycle action: ValidationError" = TypeError \/
     Exception "Error completing lifecycle action: ValidationError" = KeyError "detail" \/
     Exception "Error completing lifecycle action: ValidationError"
       = KeyError "EC2InstanceId" \/
     Exception "Error completing lifecycle action: ValidationError"
       = KeyError "LifecycleTransition")) \/
   (exists key,
      In key [ "LifecycleHookName"; "AutoScalingGroupName"; "LifecycleActionToken" ] /\
      Exception "Error completing lifecycle action: ValidationError" = KeyError key /\
      detail (lifecycle_event (PStr TERMINATING)) key = Raise (KeyError key) /\
      report_calls doomed_run.1.2 = []) \/
   (exists pre hook group token instance ce,
      calls doomed_run.1.2
        = pre ++ [ (report hook group token "ABANDON" instance, inl ce) ] /\
      Exception "Error completing lifecycle action: ValidationError"
        = raised_by_report ce)) /\
  forall str,
    Exception "Error completing lifecycle action: ValidationError"
      <> Collaborator (ClientError str).
Proof.
  apply (escaping_exceptions (scripted lookup_and_abandon_fail) example_config
           (lifecycle_event (PStr TERMINATING)) PNone 0 doomed_run.1).
  vm_compute. reflexivity.
Defined.

Lemma handler_logging_witness :
  (exists rest,
     launch_run.1.2 = Logged INFO (LogEvent (lifecycle_event (PStr LAUNCHING))) :: rest) /\
  (launch_run.2 = Ok tt
   <-> last launch_run.1.2 = Some (Logged INFO (LogText "Execution Complete"))).
Proof.
  apply (handler_logging (scripted nothing_fails) example_config
           (lifecycle_event (PStr LAUNCHING)) PNone 0 launch_run.1 launch_run.2).
  exact (surjective_pairing launch_run).
Defined.
